(** * ThreeJSPortfolio: the camera-path generator and the page handler

    A shallow embedding of [generate_camera_path.py] and of
    [portfolio_app/views.py].

    The generator talks to the FBX SDK and to the console.  Both are
    modelled by a trace of events: every SDK call the script makes is
    recorded with its receiver, its arguments and the value it returned,
    every [print] with its line.  What the SDK answers is not decided by
    the script, so it is a parameter of a run ([FbxSdk]); Python's own
    behaviour (truthiness, attribute lookup on [None], [sys.exit], the exit
    status of the interpreter) is written out. *)

From Stdlib Require Import ZArith List String Bool Lia Floats.
Import ListNotations.
Local Open Scope string_scope.
Local Open Scope Z_scope.

(** ** Python values that occur in the script *)

(** The objects the SDK hands out during one run, named by the call site
    that obtains them. *)
Inductive sdk_object : Type :=
| Manager      (* fbx.FbxManager.Create() *)
| IOSettings   (* fbx.FbxIOSettings.Create(sdk_manager, fbx.IOSROOT) *)
| Scene        (* fbx.FbxScene.Create(sdk_manager, "Camera Path Scene") *)
| NurbsCurve   (* fbx.FbxNurbsCurve.Create(scene, "CameraPath") *)
| RootNode     (* scene.GetRootNode() *)
| Exporter.    (* fbx.FbxExporter.Create(sdk_manager, "") *)

Definition sdk_object_eqb (a b : sdk_object) : bool :=
  match a, b with
  | Manager, Manager | IOSettings, IOSettings | Scene, Scene
  | NurbsCurve, NurbsCurve | RootNode, RootNode | Exporter, Exporter => true
  | _, _ => false
  end.

Inductive number : Type :=
| PyInt (n : Z)
| PyFloat (f : float).

Inductive value : Type :=
| PyNone
| PyBool (b : bool)
| PyObj (o : sdk_object).

(** Truth value testing: [None] and [False] are false, an SDK object (it
    defines neither [__bool__] nor [__len__]) is true. *)
Definition truthy (v : value) : bool :=
  match v with
  | PyNone => false
  | PyBool b => b
  | PyObj _ => true
  end.

(** fbx.FbxNurbsCurve.EDimension *)
Inductive EDimension : Type := e2D | e3D.

(** fbx.FbxVector4(x, y, z), with the numbers as the script passes them. *)
Record FbxVector4 : Type := mkFbxVector4 { vx : number; vy : number; vz : number }.

(** ** Events *)

Inductive call : Type :=
| FbxManager_Create
| FbxIOSettings_Create (container : value) (name : string)
| SetIOSettings (ios : value)
| FbxScene_Create (container : value) (name : string)
| FbxNurbsCurve_Create (container : value) (name : string)
| SetOrder (order : Z)
| SetDimension (d : EDimension)
| SetControlPointCount (n : Z)
| SetStep (n : Z)
| SetControlPointAt (p : FbxVector4) (index : Z)
| GetRootNode
| AddChild (child : value)
| FbxExporter_Create (container : value) (name : string)
| GetIOSettings
| Initialize (file : string) (format : Z) (ios : value)
| Export (scene : value)
| Destroy.

Inductive event : Type :=
| Call (self : option sdk_object) (c : call) (returned : value)
    (* [self = None]: a call on a class of the fbx module *)
| Print (line : string).

Definition trace : Type := list event.

(** ** Exceptions and the script monad *)

Inductive exception : Type :=
| AttributeError (attribute : string)   (* 'NoneType' object has no attribute ... *)
| SystemExit (code : Z).

Inductive result (A : Type) : Type :=
| Val (a : A)
| Exn (e : exception).
Arguments Val {A} a.
Arguments Exn {A} e.

(** A computation extends the trace and returns or raises. *)
Definition M (A : Type) : Type := trace -> result A * trace.

Definition ret {A} (a : A) : M A := fun tr => (Val a, tr).

Definition bind {A B} (m : M A) (k : A -> M B) : M B :=
  fun tr =>
    match m tr with
    | (Val a, tr') => k a tr'
    | (Exn e, tr') => (Exn e, tr')
    end.

Definition raise {A} (e : exception) : M A := fun tr => (Exn e, tr).

Definition emit (e : event) : M unit := fun tr => (Val tt, (tr ++ [e])%list).

Declare Scope script_scope.
Delimit Scope script_scope with script.
Notation "x <- m ;; k" := (bind m (fun x => k))
  (at level 61, m at next level, right associativity) : script_scope.
Notation "m ;; k" := (bind m (fun _ => k))
  (at level 61, right associativity) : script_scope.
Local Open Scope script_scope.

Definition print (line : string) : M unit := emit (Print line).

(** sys.exit(code) raises SystemExit. *)
Definition sys_exit {A} (code : Z) : M A := raise (SystemExit code).

(** [obj.name]: looking a method up on [None] raises AttributeError; on an
    SDK object it gives the bound method, here the receiver. *)
Definition getattr (obj : value) (name : string) : M sdk_object :=
  match obj with
  | PyObj o => ret o
  | _ => raise (AttributeError name)
  end.

(** A call into the SDK: records it and gives back what the SDK returned. *)
Definition sdk_call (self : option sdk_object) (c : call) (returned : value) : M value :=
  emit (Call self c returned) ;; ret returned.

(** A method whose result the script ignores. *)
Definition sdk_method (self : sdk_object) (c : call) : M unit :=
  sdk_call (Some self) c PyNone ;; ret tt.

(** for x in xs: body(x) *)
Fixpoint for_each {A} (xs : list A) (body : A -> M unit) : M unit :=
  match xs with
  | [] => ret tt
  | x :: xs' => body x ;; for_each xs' body
  end.

(** range(n) *)
Definition range (n : nat) : list Z := map Z.of_nat (seq 0 n).

(** ** Arithmetic of the loop body *)

(** Conversion of a Python int to float where it meets a float operand
    (exact for the magnitudes of this script, all below 2^53). *)
Definition float_of_int (n : Z) : float :=
  if n <? 0 then PrimFloat.opp (PrimFloat.of_uint63 (Uint63.of_Z (- n)))
  else PrimFloat.of_uint63 (Uint63.of_Z n).

(** math.pi, the double nearest to pi. *)
Definition math_pi : float := 0x1.921fb54442d18p+1%float.

(** ** The SDK as seen by one run *)

(** What the fbx module answers: the constant [fbx.IOSROOT], whether each
    creation call hands out an object (or a null handle, [None]), the
    status the exporter's Initialize and Export return, and the value
    sdk_manager.GetIOSettings() returns. *)
Record FbxSdk : Type := mkFbxSdk {
  IOSROOT : string;
  manager_created : bool;
  iosettings_created : bool;
  scene_created : bool;
  curve_created : bool;
  root_node_present : bool;
  exporter_created : bool;
  initialize_returns : bool;
  export_returns : bool;
  get_iosettings_returns : value
}.

Definition handle (created : bool) (o : sdk_object) : value :=
  if created then PyObj o else PyNone.

Definition default_output_file : string := "static/models/camera_path.fbx".

Section Generator.

(** math.sin, the C library's sine on doubles. *)
Variable math_sin : float -> float.

(** Lines 41-46 and the vector of line 49: the coordinates computed for
    index [i] of [for i in range(10)]. *)
Definition control_point (i : Z) : FbxVector4 :=
  let t := (float_of_int i / 9.0)%float in
  let x := (math_sin (t * math_pi * float_of_int 2) * float_of_int 5)%float in
  let y := (float_of_int 2 + math_sin (t * math_pi) * float_of_int 1)%float in
  let z := - i * 10 in
  mkFbxVector4 (PyFloat x) (PyFloat y) (PyInt z).

(** The body of the loop: line 49, path.SetControlPointAt(..., i). *)
Definition loop_body (path : value) (i : Z) : M unit :=
  let p := control_point i in
  self <- getattr path "SetControlPointAt" ;;
  sdk_method self (SetControlPointAt p i).

Definition create_camera_path_fbx (fbx : FbxSdk) (output_file : string) : M bool :=
  sdk_manager <- sdk_call None FbxManager_Create (handle (manager_created fbx) Manager) ;;
  if negb (truthy sdk_manager) then
    print "Error: Unable to create FBX Manager!" ;;
    ret false
  else
    ios <- sdk_call None (FbxIOSettings_Create sdk_manager (IOSROOT fbx))
             (handle (iosettings_created fbx) IOSettings) ;;
    self <- getattr sdk_manager "SetIOSettings" ;;
    sdk_method self (SetIOSettings ios) ;;
    scene <- sdk_call None (FbxScene_Create sdk_manager "Camera Path Scene")
               (handle (scene_created fbx) Scene) ;;
    path <- sdk_call None (FbxNurbsCurve_Create scene "CameraPath")
              (handle (curve_created fbx) NurbsCurve) ;;
    self <- getattr path "SetOrder" ;;
    sdk_method self (SetOrder 3) ;;
    self <- getattr path "SetDimension" ;;
    sdk_method self (SetDimension e3D) ;;
    self <- getattr path "SetControlPointCount" ;;
    sdk_method self (SetControlPointCount 10) ;;
    self <- getattr path "SetStep" ;;
    sdk_method self (SetStep 4) ;;
    for_each (range 10) (loop_body path) ;;
    self <- getattr scene "GetRootNode" ;;
    root <- sdk_call (Some self) GetRootNode (handle (root_node_present fbx) RootNode) ;;
    self <- getattr root "AddChild" ;;
    sdk_method self (AddChild path) ;;
    exporter <- sdk_call None (FbxExporter_Create sdk_manager "")
                  (handle (exporter_created fbx) Exporter) ;;
    initialize <- getattr exporter "Initialize" ;;
    self <- getattr sdk_manager "GetIOSettings" ;;
    settings <- sdk_call (Some self) GetIOSettings (get_iosettings_returns fbx) ;;
    export_status <- sdk_call (Some initialize) (Initialize output_file (-1) settings)
                       (PyBool (initialize_returns fbx)) ;;
    if negb (truthy export_status) then
      print "Error: Unable to initialize exporter!" ;;
      ret false
    else
      self <- getattr exporter "Export" ;;
      sdk_call (Some self) (Export scene) (PyBool (export_returns fbx)) ;;
      self <- getattr exporter "Destroy" ;;
      sdk_method self Destroy ;;
      self <- getattr sdk_manager "Destroy" ;;
      sdk_method self Destroy ;;
      print ("FBX file created successfully: " ++ output_file)%string ;;
      ret true.

(** The module run as a script.  [fbx_module] is [None] when
    [import fbx] raises ImportError. *)
Definition script (fbx_module : option FbxSdk) : M unit :=
  match fbx_module with
  | None =>
      print "FBX SDK Python bindings not found. Please install the FBX SDK or use a pre-made FBX file." ;;
      print "You can download the FBX SDK from: https://www.autodesk.com/developer-network/platform-technologies/fbx-sdk-2020-0" ;;
      sys_exit 1
  | Some fbx =>
      create_camera_path_fbx fbx default_output_file ;;
      ret tt
  end.

End Generator.

(** The interpreter's exit status: 0 when the module runs to its end, the
    code of [sys.exit], 1 for any other uncaught exception. *)
Definition exit_status {A} (r : result A) : Z :=
  match r with
  | Val _ => 0
  | Exn (SystemExit code) => code
  | Exn (AttributeError _) => 1
  end.

(** ** Observations on a trace *)

(** The lines printed, in order. *)
Definition stdout (tr : trace) : list string :=
  flat_map (fun e => match e with Print line => [line] | _ => [] end) tr.

(** The SDK calls, in order. *)
Definition sdk_calls (tr : trace) : list call :=
  flat_map (fun e => match e with Call _ c _ => [c] | _ => [] end) tr.

(** The method calls received by object [o], in order. *)
Definition calls_on (o : sdk_object) (tr : trace) : list call :=
  flat_map (fun e =>
    match e with
    | Call (Some o') c _ => if sdk_object_eqb o o' then [c] else []
    | _ => []
    end) tr.

(** The objects handed out by the creation calls, in order. *)
Definition created (tr : trace) : list sdk_object :=
  flat_map (fun e => match e with Call None _ (PyObj o) => [o] | _ => [] end) tr.

(** The control points set, with their indices, in order. *)
Definition control_points (tr : trace) : list (FbxVector4 * Z) :=
  flat_map (fun e =>
    match e with
    | Call _ (SetControlPointAt p i) _ => [(p, i)]
    | _ => []
    end) tr.

(** The files the exporter was asked to open. *)
Definition output_files (tr : trace) : list string :=
  flat_map (fun e =>
    match e with
    | Call _ (Initialize file _ _) _ => [file]
    | _ => []
    end) tr.

(** Whether an exporter's Initialize returned True. *)
Definition initialize_succeeded (tr : trace) : bool :=
  existsb (fun e =>
    match e with
    | Call _ (Initialize _ _ _) (PyBool true) => true
    | _ => false
    end) tr.

(** What Export returned, for each Export call. *)
Definition export_results (tr : trace) : list value :=
  flat_map (fun e => match e with Call _ (Export _) v => [v] | _ => [] end) tr.

(** *** Resources held

    An object handed out by a creation call is held until it is destroyed.
    [Destroy] on an object releases it; [Destroy] on the manager releases
    every object created through it (the SDK's documented behaviour: the
    manager destroys the objects it still has allocated), which here is
    every object of the run.  The root node belongs to its scene and is not
    a resource of its own. *)
Definition release (o : sdk_object) (held : list sdk_object) : list sdk_object :=
  filter (fun o' => negb (sdk_object_eqb o o')) held.

Definition held_step (held : list sdk_object) (e : event) : list sdk_object :=
  match e with
  | Call None _ (PyObj o) => (held ++ [o])%list
  | Call (Some Manager) Destroy _ => []
  | Call (Some o) Destroy _ => release o held
  | _ => held
  end.

Definition held (tr : trace) : list sdk_object := fold_left held_step tr [].

(** The event of one loop iteration on the curve [o], and the events of
    the whole loop. *)
Definition iteration (math_sin : float -> float) (o : sdk_object) (i : Z) : event :=
  Call (Some o) (SetControlPointAt (control_point math_sin i) i) PyNone.

(** Whether an exporter's Initialize returned False. *)
Definition initialize_failed (tr : trace) : bool :=
  existsb (fun e =>
    match e with
    | Call _ (Initialize _ _ _) (PyBool false) => true
    | _ => false
    end) tr.

(** The objects on which Destroy was called, in order. *)
Definition destroyed (tr : trace) : list sdk_object :=
  flat_map (fun e => match e with Call (Some o) Destroy _ => [o] | _ => [] end) tr.

(** Line 41, [t = i / 9.0], the position along the path that
    [control_point] computes for index [i]. *)
Definition t (i : Z) : float := (float_of_int i / 9.0)%float.

(** The arguments of each Initialize call: file, format, IO settings. *)
Definition initialize_calls (tr : trace) : list (string * Z * value) :=
  flat_map (fun e =>
    match e with
    | Call _ (Initialize file format ios) _ => [(file, format, ios)]
    | _ => []
    end) tr.

(** Whether every Export call of a trace comes after an Initialize call
    that returned True ([initialized]: one was seen already). *)
Fixpoint exports_follow_initialize_from (initialized : bool) (tr : trace) : bool :=
  match tr with
  | [] => true
  | Call _ (Initialize _ _ _) (PyBool true) :: tr' =>
      exports_follow_initialize_from true tr'
  | Call _ (Export _) _ :: tr' =>
      initialized && exports_follow_initialize_from initialized tr'
  | _ :: tr' => exports_follow_initialize_from initialized tr'
  end.

Definition exports_follow_initialize (tr : trace) : bool :=
  exports_follow_initialize_from false tr.

(** The SDK answers with which a run gets as far as exporter.Initialize:
    every object a method is looked up on before that line exists. *)
Definition reaches_initialize (fbx : FbxSdk) : bool :=
  manager_created fbx && curve_created fbx && scene_created fbx
  && root_node_present fbx && exporter_created fbx.

(** *** Order of use

    A checker for the order in which a trace uses SDK objects: an object is
    usable from the call that returned it until Destroy is called on it or
    on the manager.  A call is in order when its receiver and the objects
    among its arguments are usable, and, for a call on a class of the
    module, when the manager has not been destroyed. *)
Definition mem_object (o : sdk_object) (l : list sdk_object) : bool :=
  existsb (sdk_object_eqb o) l.

(** The values passed to a call that may be SDK objects. *)
Definition object_arguments (c : call) : list value :=
  match c with
  | FbxIOSettings_Create container _ => [container]
  | SetIOSettings ios => [ios]
  | FbxScene_Create container _ => [container]
  | FbxNurbsCurve_Create container _ => [container]
  | AddChild child => [child]
  | FbxExporter_Create container _ => [container]
  | Initialize _ _ ios => [ios]
  | Export scene => [scene]
  | _ => []
  end.

Record use_state : Type := mkUseState {
  obtained : list sdk_object;   (* returned by some call so far *)
  gone : list sdk_object;       (* Destroy was called on them *)
  in_order : bool               (* every call so far was in order *)
}.

Definition usable (st : use_state) (o : sdk_object) : bool :=
  mem_object o (obtained st) && negb (mem_object o (gone st))
  && negb (mem_object Manager (gone st)).

Definition usable_value (st : use_state) (v : value) : bool :=
  match v with
  | PyObj o => usable st o
  | _ => true
  end.

Definition use_step (st : use_state) (e : event) : use_state :=
  match e with
  | Print _ => st
  | Call self c returned =>
      let receiver_ok :=
        match self with
        | Some o => usable st o
        | None => negb (mem_object Manager (gone st))
        end in
      mkUseState
        (match returned with
         | PyObj o => (obtained st ++ [o])%list
         | _ => obtained st
         end)
        (match self, c with
         | Some o, Destroy => (gone st ++ [o])%list
         | _, _ => gone st
         end)
        (in_order st && receiver_ok && forallb (usable_value st) (object_arguments c))
  end.

Definition used_in_order (tr : trace) : bool :=
  in_order (fold_left use_step tr (mkUseState [] [] true)).

(** ** The page handler (portfolio_app/views.py) *)

Section PageHandler.

(** The framework's request, response and template-context types. *)
Variables HttpRequest HttpResponse Context : Type.

(** django.shortcuts.render(request, template_name, context=None) *)
Variable render : HttpRequest -> string -> option Context -> HttpResponse.

Definition index (request : HttpRequest) : HttpResponse :=
  render request "portfolio_app/index.html" None.

End PageHandler.

Arguments index {HttpRequest HttpResponse Context} render request.

(** ** Concrete runs

    Instances of the parameters, for evaluating the model. *)

(** A polynomial stand-in for the C library's sine (Taylor, degree 9). *)
Definition sin_taylor (x : float) : float :=
  let x2 := (x * x)%float in
  (x * (1 + x2 * (-0x1.5555555555555p-3
        + x2 * (0x1.1111111111111p-7
        + x2 * (-0x1.a01a01a01a01ap-13
        + x2 * 0x1.71de3a556c734p-19)))))%float.

(** An SDK on which every call succeeds. *)
Definition sdk_ok : FbxSdk :=
  mkFbxSdk "IOSRoot" true true true true true true true true (PyObj IOSettings).

(** [s] with Export returning [b]. *)
Definition with_export_returns (s : FbxSdk) (b : bool) : FbxSdk :=
  mkFbxSdk (IOSROOT s) (manager_created s) (iosettings_created s) (scene_created s)
    (curve_created s) (root_node_present s) (exporter_created s) (initialize_returns s) b
    (get_iosettings_returns s).

(** Null handles and failures, one at a time. *)
Definition sdk_no_manager : FbxSdk :=
  mkFbxSdk "IOSRoot" false true true true true true true true (PyObj IOSettings).
Definition sdk_no_scene : FbxSdk :=
  mkFbxSdk "IOSRoot" true true false true true true true true (PyObj IOSettings).
Definition sdk_no_curve : FbxSdk :=
  mkFbxSdk "IOSRoot" true true true false true true true true (PyObj IOSettings).
Definition sdk_initialize_fails : FbxSdk :=
  mkFbxSdk "IOSRoot" true true true true true true false true (PyObj IOSettings).


(** * Properties *)

(** ** The loop *)

Section Loop.

Variable math_sin : float -> float.

(** On an object, the loop never raises and appends one call per index. *)
Lemma for_each_loop_body (o : sdk_object) (xs : list Z) (tr : trace) :
  for_each xs (loop_body math_sin (PyObj o)) tr
  = (Val tt, (tr ++ map (iteration math_sin o) xs)%list).
Proof.
  revert tr; induction xs as [|i xs IH]; intro tr; cbn [for_each map].
  - unfold ret. now rewrite app_nil_r.
  - unfold bind at 1. cbn. rewrite IH. now rewrite <- app_assoc.
Qed.

(** On [None], the first iteration raises. *)
Lemma for_each_loop_body_none (i : Z) (xs : list Z) (tr : trace) :
  for_each (i :: xs) (loop_body math_sin PyNone) tr
  = (Exn (AttributeError "SetControlPointAt"), tr).
Proof. reflexivity. Qed.

Lemma control_points_iterations (o : sdk_object) (xs : list Z) :
  control_points (map (iteration math_sin o) xs)
  = map (fun i => (control_point math_sin i, i)) xs.
Proof. induction xs as [|i xs IH]; cbn; [reflexivity | now f_equal]. Qed.

Lemma control_point_z (i : Z) : vz (control_point math_sin i) = PyInt (-10 * i).
Proof. unfold control_point, vz. f_equal. lia. Qed.

End Loop.

(** ** Runs of the generator *)

Ltac sdk_cases fbx :=
  let root := fresh "iosroot" in
  destruct fbx as [root [|] [|] [|] [|] [|] [|] [|] ? ?].

Section Runs.

Variable math_sin : float -> float.

(** The control points of a run: all ten once the manager and the curve
    exist, none otherwise. *)
Lemma control_points_run (fbx : FbxSdk) (output_file : string) :
  control_points (snd (create_camera_path_fbx math_sin fbx output_file []))
  = if manager_created fbx && curve_created fbx
    then map (fun i => (control_point math_sin i, i)) (range 10)
    else [].
Proof. sdk_cases fbx; reflexivity. Qed.

(** How a run ends, by the first call that fails. *)
Lemma outcome_run (fbx : FbxSdk) (output_file : string) :
  fst (create_camera_path_fbx math_sin fbx output_file [])
  = if negb (manager_created fbx) then Val false
    else if negb (curve_created fbx) then Exn (AttributeError "SetOrder")
    else if negb (scene_created fbx) then Exn (AttributeError "GetRootNode")
    else if negb (root_node_present fbx) then Exn (AttributeError "AddChild")
    else if negb (exporter_created fbx) then Exn (AttributeError "Initialize")
    else Val (initialize_returns fbx).
Proof. sdk_cases fbx; reflexivity. Qed.

(** C1: every control point the generator sets has an index [i] in 0..9
    and z-coordinate exactly the integer [-10 * i]; a run that has its
    manager and its curve sets one for each of the indices 0..9. *)
Theorem control_point_z_linear (fbx : FbxSdk) (output_file : string) :
  let points := control_points (snd (create_camera_path_fbx math_sin fbx output_file [])) in
  Forall (fun pi => 0 <= snd pi <= 9 /\ vz (fst pi) = PyInt (-10 * snd pi)) points
  /\ map snd points
     = if manager_created fbx && curve_created fbx then [0; 1; 2; 3; 4; 5; 6; 7; 8; 9] else [].
Proof.
  cbv zeta. rewrite control_points_run.
  destruct (manager_created fbx && curve_created fbx); split; try reflexivity.
  - apply Forall_forall. intros [p i] Hin.
    apply in_map_iff in Hin. destruct Hin as [j [Hj Hin]].
    inversion Hj; subst; clear Hj. cbn [fst snd]. split.
    + unfold range in Hin. apply in_map_iff in Hin.
      destruct Hin as [n [<- Hn]]. apply in_seq in Hn. lia.
    + apply control_point_z.
  - constructor.
Qed.

(** C3: when the generator returns True, it has created one curve object,
    configured it with SetOrder(3), SetDimension(e3D),
    SetControlPointCount(10) and SetStep(4), and then set exactly ten
    control points on it, at the indices 0..9 in increasing order; the
    calls the curve receives are the same for every output file and every
    SDK on which the run succeeds. *)
Theorem success_curve_is_fixed (fbx : FbxSdk) (output_file : string) :
  let r := create_camera_path_fbx math_sin fbx output_file [] in
  fst r = Val true ->
  filter (sdk_object_eqb NurbsCurve) (created (snd r)) = [NurbsCurve]
  /\ calls_on NurbsCurve (snd r)
     = ([SetOrder 3; SetDimension e3D; SetControlPointCount 10; SetStep 4]
        ++ map (fun i => SetControlPointAt (control_point math_sin i) i) (range 10))%list
  /\ List.length (control_points (snd r)) = 10%nat
  /\ map snd (control_points (snd r)) = [0; 1; 2; 3; 4; 5; 6; 7; 8; 9].
Proof.
  cbv zeta. intro Hret. rewrite outcome_run in Hret.
  sdk_cases fbx; cbn in Hret; try discriminate.
  all: repeat split; reflexivity.
Qed.

(** C10: the coordinates are a function of the index alone: two runs that
    set control points, whatever their output files and whatever the SDK
    answered, set the same ten points, and the point at index [i] is
    [control_point math_sin i] in both. *)
Theorem coordinates_depend_only_on_index
    (fbx1 fbx2 : FbxSdk) (output_file1 output_file2 : string) :
  let points1 := control_points (snd (create_camera_path_fbx math_sin fbx1 output_file1 [])) in
  let points2 := control_points (snd (create_camera_path_fbx math_sin fbx2 output_file2 [])) in
  points1 <> [] -> points2 <> [] ->
  points1 = points2
  /\ map snd points1 = [0; 1; 2; 3; 4; 5; 6; 7; 8; 9]
  /\ forall p i, In (p, i) points1 -> p = control_point math_sin i.
Proof.
  cbv zeta. rewrite !control_points_run.
  destruct (manager_created fbx1 && curve_created fbx1); [|congruence].
  destruct (manager_created fbx2 && curve_created fbx2); [|congruence].
  intros _ _. repeat split.
  intros p i Hin. apply in_map_iff in Hin.
  destruct Hin as [j [Hj _]]. now inversion Hj; subst.
Qed.

(** *** Failure handling *)

(** Resources on the two paths that clean up: nothing is held after a
    run that returns True, and nothing was acquired when the manager
    could not be created. *)
Lemma success_releases_all (fbx : FbxSdk) (output_file : string) :
  let r := create_camera_path_fbx math_sin fbx output_file [] in
  fst r = Val true -> held (snd r) = [] /\ destroyed (snd r) = [Exporter; Manager].
Proof.
  cbv zeta. intro Hret. rewrite outcome_run in Hret.
  sdk_cases fbx; cbn in Hret; try discriminate; split; reflexivity.
Qed.

Lemma no_manager_holds_nothing (fbx : FbxSdk) (output_file : string) :
  manager_created fbx = false ->
  held (snd (create_camera_path_fbx math_sin fbx output_file [])) = [].
Proof. intro Hm. sdk_cases fbx; cbn in Hm; try discriminate; reflexivity. Qed.

(** C4: when the exporter's Initialize returns False, the generator
    returns False without a single Destroy call: the manager, the IO
    settings, the scene, the curve and the exporter it created are all
    still held when it returns. *)
Theorem initialize_failure_releases_nothing (output_file : string) :
  let r := create_camera_path_fbx math_sin sdk_initialize_fails output_file [] in
  fst r = Val false
  /\ destroyed (snd r) = []
  /\ held (snd r) = [Manager; IOSettings; Scene; NurbsCurve; Exporter].
Proof. repeat split; reflexivity. Qed.

(** C5: of the manager, the scene and the curve, only the manager's
    creation is checked; a null handle from the other two is not
    reported.  When one of the three creations returns a null handle:
    if it is the manager's, the generator prints
    "Error: Unable to create FBX Manager!" and returns False (lines
    19-21); otherwise the null scene or curve is used as it is, the first
    method call on it raises AttributeError, nothing is printed and nothing
    is returned. *)
Theorem only_manager_creation_checked (fbx : FbxSdk) (output_file : string) :
  let r := create_camera_path_fbx math_sin fbx output_file [] in
  manager_created fbx = false \/ scene_created fbx = false \/ curve_created fbx = false ->
  if manager_created fbx
  then (fst r = Exn (AttributeError
                       (if curve_created fbx then "GetRootNode" else "SetOrder"))
        /\ stdout (snd r) = [])
  else (fst r = Val false
        /\ stdout (snd r) = ["Error: Unable to create FBX Manager!"]).
Proof.
  cbv zeta. intros [H | [H | H]];
    sdk_cases fbx; cbn in H; try discriminate; split; reflexivity.
Qed.

(** C6: when [import fbx] fails, the script prints its two explanatory
    lines, exits with status 1 through sys.exit(1), and has made no SDK
    call, so no exporter was ever asked to open a file. *)
Theorem missing_bindings_exit_1 :
  let r := script math_sin None [] in
  fst r = Exn (SystemExit 1)
  /\ exit_status (fst r) = 1
  /\ stdout (snd r)
     = ["FBX SDK Python bindings not found. Please install the FBX SDK or use a pre-made FBX file.";
        "You can download the FBX SDK from: https://www.autodesk.com/developer-network/platform-technologies/fbx-sdk-2020-0"]
  /\ sdk_calls (snd r) = []
  /\ output_files (snd r) = [].
Proof. repeat split; reflexivity. Qed.

(** The two failures the code tests for are reported: when the manager
    cannot be created, or when the exporter's Initialize returns False, the
    generator prints one error line and returns False, and the script run
    on the same SDK ends with exit status 0. *)
Theorem reported_failures_exit_0 (fbx : FbxSdk) (output_file : string) :
  let r := create_camera_path_fbx math_sin fbx output_file [] in
  manager_created fbx = false \/ initialize_failed (snd r) = true ->
  fst r = Val false
  /\ stdout (snd r)
     = [if manager_created fbx
        then "Error: Unable to initialize exporter!"
        else "Error: Unable to create FBX Manager!"]
  /\ exit_status (fst (script math_sin (Some fbx) [])) = 0.
Proof.
  cbv zeta. intros [H | H];
    sdk_cases fbx; cbn in H; try discriminate; repeat split; reflexivity.
Qed.

(** C7: a failed creation of the scene or of the curve is not reported.
    With a manager and a null scene or curve, the generator raises
    AttributeError instead of returning False, and the script run on that
    SDK prints no error line and ends with exit status 1, not 0. *)
Theorem unchecked_creation_exit_1 (fbx : FbxSdk) (output_file : string) :
  manager_created fbx = true ->
  scene_created fbx = false \/ curve_created fbx = false ->
  fst (create_camera_path_fbx math_sin fbx output_file [])
  = Exn (AttributeError (if curve_created fbx then "GetRootNode" else "SetOrder"))
  /\ stdout (snd (script math_sin (Some fbx) [])) = []
  /\ exit_status (fst (script math_sin (Some fbx) [])) = 1.
Proof.
  intros Hm [H | H];
    sdk_cases fbx; cbn in Hm, H; try discriminate; repeat split; reflexivity.
Qed.

(** C8: once the exporter's Initialize has returned True, the generator
    calls Export once, prints the confirmation and returns True, whether
    Export returned True or False. *)
Theorem export_status_ignored (fbx : FbxSdk) (output_file : string) (b : bool) :
  let r := create_camera_path_fbx math_sin (with_export_returns fbx b) output_file [] in
  initialize_succeeded (snd r) = true ->
  export_results (snd r) = [PyBool b]
  /\ fst r = Val true
  /\ stdout (snd r) = [("FBX file created successfully: " ++ output_file)%string].
Proof.
  cbv zeta. intro H.
  sdk_cases fbx; cbn in H; try discriminate; repeat split; reflexivity.
Qed.

End Runs.

(** ** The page handler *)

Section PageHandlerProperties.

Variables HttpRequest HttpResponse Context : Type.
Variable render : HttpRequest -> string -> option Context -> HttpResponse.


End PageHandlerProperties.

(** ** Concrete runs of the properties *)

(** The successful run on [sdk_ok] has the fixed curve of C3. *)
Lemma success_curve_is_fixed_run :
  fst (create_camera_path_fbx sin_taylor sdk_ok "out.fbx" []) = Val true
  /\ map snd (control_points (snd (create_camera_path_fbx sin_taylor sdk_ok "out.fbx" [])))
     = [0; 1; 2; 3; 4; 5; 6; 7; 8; 9].
Proof.
  split; [reflexivity|].
  apply (success_curve_is_fixed sin_taylor sdk_ok "out.fbx"). reflexivity.
Defined.

(** A successful run and one whose export fails to initialize, writing to
    different files, set the same points. *)
Lemma coordinates_depend_only_on_index_run :
  control_points (snd (create_camera_path_fbx sin_taylor sdk_ok "a.fbx" []))
  = control_points (snd (create_camera_path_fbx sin_taylor sdk_initialize_fails "b.fbx" [])).
Proof.
  apply (coordinates_depend_only_on_index sin_taylor sdk_ok sdk_initialize_fails "a.fbx" "b.fbx");
    discriminate.
Defined.

(** A null scene is not reported: the run dies on scene.GetRootNode()
    with an AttributeError, having printed nothing and returned nothing. *)
Lemma only_manager_creation_checked_run :
  scene_created sdk_no_scene = false
  /\ fst (create_camera_path_fbx sin_taylor sdk_no_scene default_output_file [])
     = Exn (AttributeError "GetRootNode")
  /\ stdout (snd (create_camera_path_fbx sin_taylor sdk_no_scene default_output_file [])) = [].
Proof.
  split; [reflexivity|].
  apply (only_manager_creation_checked sin_taylor sdk_no_scene default_output_file).
  right. left. reflexivity.
Defined.

(** Without a manager the failure is reported. *)
Lemma null_manager_reported :
  fst (create_camera_path_fbx sin_taylor sdk_no_manager default_output_file []) = Val false
  /\ stdout (snd (create_camera_path_fbx sin_taylor sdk_no_manager default_output_file []))
     = ["Error: Unable to create FBX Manager!"].
Proof. split; reflexivity. Qed.

(** An Initialize that returns False is reported and the script exits 0. *)
Lemma reported_failures_exit_0_run :
  initialize_failed (snd (create_camera_path_fbx sin_taylor sdk_initialize_fails default_output_file []))
  = true
  /\ fst (create_camera_path_fbx sin_taylor sdk_initialize_fails default_output_file []) = Val false
  /\ exit_status (fst (script sin_taylor (Some sdk_initialize_fails) [])) = 0.
Proof.
  split; [reflexivity|].
  destruct (reported_failures_exit_0 sin_taylor sdk_initialize_fails default_output_file)
    as [Hret [_ Hexit]].
  - right. reflexivity.
  - split; assumption.
Defined.

(** A null curve is a failed resource creation that is neither printed nor
    returned: path.SetOrder(3) raises AttributeError, and the script ends
    with exit status 1. *)
Lemma unchecked_creation_exit_1_run :
  curve_created sdk_no_curve = false
  /\ fst (create_camera_path_fbx sin_taylor sdk_no_curve default_output_file [])
     = Exn (AttributeError "SetOrder")
  /\ stdout (snd (script sin_taylor (Some sdk_no_curve) [])) = []
  /\ exit_status (fst (script sin_taylor (Some sdk_no_curve) [])) = 1.
Proof.
  split; [reflexivity|].
  apply (unchecked_creation_exit_1 sin_taylor sdk_no_curve default_output_file).
  - reflexivity.
  - right. reflexivity.
Defined.

(** Export returning False still ends in True and the confirmation. *)
Lemma export_status_ignored_run :
  export_results (snd (create_camera_path_fbx sin_taylor (with_export_returns sdk_ok false) "out.fbx" []))
  = [PyBool false]
  /\ fst (create_camera_path_fbx sin_taylor (with_export_returns sdk_ok false) "out.fbx" [])
     = Val true
  /\ stdout (snd (create_camera_path_fbx sin_taylor (with_export_returns sdk_ok false) "out.fbx" []))
     = ["FBX file created successfully: out.fbx"].
Proof.
  apply (export_status_ignored sin_taylor sdk_ok "out.fbx" false). reflexivity.
Defined.


(** * Further properties of the generator *)

Section Outcomes.

Variable math_sin : float -> float.

(** X1: the result of the generator is decided by the SDK's answers alone:
    it returns True exactly when the manager, the curve, the scene, the root
    node and the exporter all exist and Initialize returns True; it returns
    False exactly when the manager is null, or all five exist and Initialize
    returns False; in every other case it raises AttributeError.  It never
    raises SystemExit, and neither the output file, nor a null IO-settings
    handle, nor what Export returns changes the result. *)
Theorem result_by_sdk_answers (fbx : FbxSdk) (output_file : string) :
  let r := fst (create_camera_path_fbx math_sin fbx output_file []) in
  (r = Val true <-> reaches_initialize fbx && initialize_returns fbx = true)
  /\ (r = Val false
      <-> negb (manager_created fbx)
          || reaches_initialize fbx && negb (initialize_returns fbx) = true)
  /\ (forall code, r <> Exn (SystemExit code))
  /\ ((exists attribute, r = Exn (AttributeError attribute))
      <-> manager_created fbx && negb (reaches_initialize fbx) = true).
Proof.
  cbv zeta. rewrite outcome_run.
  sdk_cases fbx; cbn; repeat split; intros; try discriminate; try reflexivity;
    try (now eexists);
    match goal with
    | H : exists _, _ |- _ => destruct H; discriminate
    end.
Qed.

(** X2: Export is called only after an Initialize that returned True, and
    then exactly once: in the trace of every run each Export call comes
    after an Initialize call that returned True, and a run whose Initialize
    failed, or that never reached it, makes no Export call. *)
Theorem export_only_after_initialize (fbx : FbxSdk) (output_file : string) :
  let tr := snd (create_camera_path_fbx math_sin fbx output_file []) in
  exports_follow_initialize tr = true
  /\ initialize_succeeded tr = reaches_initialize fbx && initialize_returns fbx
  /\ export_results tr
     = if initialize_succeeded tr then [PyBool (export_returns fbx)] else [].
Proof. sdk_cases fbx; repeat split; reflexivity. Qed.

(** X3: the exporter is initialized at most once, and then with exactly the
    file name the caller passed, the format -1, and whatever value
    sdk_manager.GetIOSettings() returned, unchecked. *)
Theorem initialize_arguments (fbx : FbxSdk) (output_file : string) :
  initialize_calls (snd (create_camera_path_fbx math_sin fbx output_file []))
  = if reaches_initialize fbx
    then [(output_file, -1, get_iosettings_returns fbx)]
    else [].
Proof. sdk_cases fbx; reflexivity. Qed.

(** X4: run as a script, the generator asks the exporter to open no file
    but "static/models/camera_path.fbx", and that one at most once; it
    opens none when the bindings are missing or an object before Initialize
    is null. *)
Theorem script_opens_default_file (fbx_module : option FbxSdk) :
  output_files (snd (script math_sin fbx_module []))
  = match fbx_module with
    | Some fbx => if reaches_initialize fbx then ["static/models/camera_path.fbx"] else []
    | None => []
    end.
Proof. destruct fbx_module as [fbx|]; [sdk_cases fbx|]; reflexivity. Qed.

(** X5: Destroy is called on the success path only: a run that returns True
    destroys the exporter and then the manager; a run that returns False or
    raises calls Destroy on nothing. *)
Theorem destroy_only_on_success (fbx : FbxSdk) (output_file : string) :
  let r := create_camera_path_fbx math_sin fbx output_file [] in
  destroyed (snd r)
  = match fst r with
    | Val true => [Exporter; Manager]
    | _ => []
    end.
Proof. sdk_cases fbx; reflexivity. Qed.

(** X6: what is still held when the generator is left: nothing after it
    returned True; otherwise every object its creation calls handed out,
    which after an AttributeError includes the manager. *)
Theorem held_at_exit (fbx : FbxSdk) (output_file : string) :
  let r := create_camera_path_fbx math_sin fbx output_file [] in
  held (snd r)
  = match fst r with
    | Val true => []
    | _ => created (snd r)
    end
  /\ match fst r with
     | Exn _ => mem_object Manager (held (snd r)) = true
     | Val _ => True
     end.
Proof. sdk_cases fbx; split; (reflexivity || exact I). Qed.

(** X7: the generator uses the SDK objects in order: in every run, each
    method is called on an object that an earlier call returned, no object
    is used or passed after Destroy was called on it, and no SDK call at
    all follows the manager's Destroy. *)
Theorem calls_in_order (fbx : FbxSdk) (output_file : string) :
  used_in_order (snd (create_camera_path_fbx math_sin fbx output_file [])) = true.
Proof.
  destruct fbx as [iosroot [|] [|] [|] [|] [|] [|] [|] ? [| [|] | []]]; reflexivity.
Qed.

(** X8: the console tells how the run ended: a run that returns prints
    exactly one line, the confirmation with the file name when it returns
    True and one of the two error lines when it returns False; a run that
    raises prints nothing. *)
Theorem stdout_by_result (fbx : FbxSdk) (output_file : string) :
  let r := create_camera_path_fbx math_sin fbx output_file [] in
  stdout (snd r)
  = match fst r with
    | Val true => [("FBX file created successfully: " ++ output_file)%string]
    | Val false =>
        [if manager_created fbx
         then "Error: Unable to initialize exporter!"
         else "Error: Unable to create FBX Manager!"]
    | Exn _ => []
    end.
Proof. sdk_cases fbx; reflexivity. Qed.

(** X9: the exit status of the script is 1 when the bindings are missing
    and when, with a manager, one of the curve, scene, root node or
    exporter is null (uncaught AttributeError); in every other case it is
    0, whether the generator returned True or False. *)
Theorem script_exit_status (fbx_module : option FbxSdk) :
  exit_status (fst (script math_sin fbx_module []))
  = match fbx_module with
    | None => 1
    | Some fbx =>
        if negb (manager_created fbx) || reaches_initialize fbx then 0 else 1
    end.
Proof. destruct fbx_module as [fbx|]; [sdk_cases fbx|]; reflexivity. Qed.

(** X10: when the manager is null the generator stops at once:
    FbxManager.Create is the only SDK call of the run. *)
Theorem null_manager_stops_at_once (fbx : FbxSdk) (output_file : string) :
  manager_created fbx = false ->
  snd (create_camera_path_fbx math_sin fbx output_file [])
  = [Call None FbxManager_Create PyNone; Print "Error: Unable to create FBX Manager!"].
Proof. intro H. sdk_cases fbx; cbn in H; try discriminate; reflexivity. Qed.

(** X11: the position [t = i / 9.0] that the loop feeds to the sines is
    normalized as the source's comment says: for the indices 0..9 it lies
    between 0 and 1, it is exactly 0 at the first index and exactly 1 at
    the last, and it grows strictly from one index to the next. *)
Theorem t_normalized (i : Z) :
  0 <= i <= 9 ->
  control_point math_sin i
  = mkFbxVector4
      (PyFloat (math_sin (t i * math_pi * 2) * 5)%float)
      (PyFloat (2 + math_sin (t i * math_pi) * 1)%float)
      (PyInt (- i * 10))
  /\ (0 <=? t i)%float = true /\ (t i <=? 1)%float = true
  /\ t 0 = 0%float /\ t 9 = 1%float
  /\ (i < 9 -> (t i <? t (i + 1))%float = true).
Proof.
  intro Hi.
  assert (Hcases : i = 0 \/ i = 1 \/ i = 2 \/ i = 3 \/ i = 4 \/ i = 5
                   \/ i = 6 \/ i = 7 \/ i = 8 \/ i = 9) by lia.
  destruct Hcases as [-> | [-> | [-> | [-> | [-> | [-> | [-> | [-> | [-> | ->]]]]]]]]];
    (split; [reflexivity|]);
    repeat split; try (vm_compute; reflexivity);
    intro Hlt; try lia; vm_compute; reflexivity.
Qed.

End Outcomes.

(** The Export-order checker rejects an Export that comes before the
    successful Initialize, and one that follows only a failed Initialize. *)
Lemma exports_follow_initialize_rejects :
  exports_follow_initialize
    [Call (Some Exporter) (Export (PyObj Scene)) (PyBool true);
     Call (Some Exporter) (Initialize "out.fbx" (-1) PyNone) (PyBool true)] = false
  /\ exports_follow_initialize
       [Call (Some Exporter) (Initialize "out.fbx" (-1) PyNone) (PyBool false);
        Call (Some Exporter) (Export (PyObj Scene)) (PyBool true)] = false.
Proof. split; reflexivity. Qed.

(** The order checker does reject a trace that uses an exporter after its
    Destroy, and one that calls a method on an object nothing returned. *)
Lemma used_in_order_rejects :
  used_in_order
    [Call None FbxManager_Create (PyObj Manager);
     Call None (FbxExporter_Create (PyObj Manager) "") (PyObj Exporter);
     Call (Some Exporter) Destroy PyNone;
     Call (Some Exporter) (Export PyNone) (PyBool true)] = false
  /\ used_in_order [Call (Some Scene) GetRootNode (PyObj RootNode)] = false
  /\ used_in_order
       [Call None FbxManager_Create (PyObj Manager);
        Call (Some Manager) Destroy PyNone;
        Call None (FbxScene_Create (PyObj Manager) "s") (PyObj Scene)] = false.
Proof. repeat split; reflexivity. Qed.

(** Without a manager, the run is the creation attempt and the error. *)
Lemma null_manager_stops_at_once_run :
  manager_created sdk_no_manager = false
  /\ sdk_calls (snd (create_camera_path_fbx sin_taylor sdk_no_manager "out.fbx" []))
     = [FbxManager_Create].
Proof.
  split; [reflexivity|].
  rewrite (null_manager_stops_at_once sin_taylor sdk_no_manager "out.fbx" eq_refl).
  reflexivity.
Defined.

(** Half way along the path, at index 4. *)
Lemma t_normalized_run :
  (0 <=? t 4)%float = true /\ (t 4 <=? 1)%float = true /\ (t 4 <? t 5)%float = true.
Proof.
  destruct (t_normalized sin_taylor 4) as [_ [Hlo [Hhi [_ [_ Hnext]]]]]; [lia|].
  split; [exact Hlo | split; [exact Hhi | apply Hnext; lia]].
Defined.
